(** * The [cppstudy] documentation collection

    A verification development for
    [docs/.vuepress/collections/cppstudy.ts]: one ES module whose body is

    <<
      import { defineCollection } from 'vuepress-theme-plume'
      export default defineCollection({ ... })
    >>

    The object literal is embedded as a tree of JavaScript values; the
    evaluation of the module body is a computation in a small state and
    error monad, because the one thing the body does besides building the
    literal is to call a function that it imports. *)

From Stdlib Require Import String Ascii List Bool Arith Lia.
From Stdlib Require Import Numbers.DecimalString Sorting.Sorted.
Import ListNotations.

Open Scope string_scope.

(** ** JavaScript values

    The fragment of the value universe that the literal uses: strings,
    booleans, arrays and plain objects.  A string is the sequence of the
    bytes of its UTF-8 encoding, as the source file stores it; the
    strings are compared for equality and tested against ASCII prefixes
    and suffixes only, which reads the same on bytes as on the UTF-16
    units of the run time.  An object keeps its properties in the order of
    the literal. *)

#[local] Set Warnings "-register-all".

Inductive value : Type :=
| VString (s : string)
| VBoolean (b : bool)
| VArray (elems : list value)
| VObject (props : list (string * value)).

(** What [typeof] answers, with ["undefined"] for a property that is
    absent. *)
Inductive js_type : Type :=
| TUndefined
| TBoolean
| TNumber
| TString
| TObject.

Definition typeof (v : option value) : js_type :=
  match v with
  | None => TUndefined
  | Some (VString _) => TString
  | Some (VBoolean _) => TBoolean
  | Some (VArray _) => TObject
  | Some (VObject _) => TObject
  end.

(** In an object literal a later property of the same name overrides an
    earlier one, so the lookup returns the last binding of the key. *)
Fixpoint lookup (k : string) (props : list (string * value)) : option value :=
  match props with
  | [] => None
  | (k', v) :: rest =>
      match lookup k rest with
      | Some w => Some w
      | None => if String.eqb k k' then Some v else None
      end
  end.

(** Reading the own property [k] of a plain object: what [v.k] answers
    for a name that the literal writes, and [None], for [undefined], for
    a name that it does not write.  What an object inherits from its
    prototype ([constructor], [toString]) and the indices and [length] of
    arrays and strings are outside this model; no statement below reads
    one. *)
Definition get (k : string) (v : value) : option value :=
  match v with
  | VObject props => lookup k props
  | _ => None
  end.

(** ** The object literal of the module, field by field as in the source *)

Definition cppstudy : value :=
  VObject
    [ ("type", VString "doc");
      ("dir", VString "cppstudy");
      ("linkPrefix", VString "/cppstudy");
      ("title", VString "cppstudy");
      ("sidebar",
        VArray
          [ VObject
              [ ("text", VString "C++: 基础语法");
                ("collapsed", VBoolean true);
                ("items",
                  VArray
                    [ VObject
                        [ ("text", VString "第一章 基本概念");
                          ("link", VString "001-基本概念.md") ];
                      VObject
                        [ ("text", VString "第二章 基本数据类型");
                          ("link", VString "002-基本数据类型.md") ];
                      VObject
                        [ ("text", VString "第三章 处理基本数据类型");
                          ("link", VString "003-处理基本数据类型.md") ];
                      VObject
                        [ ("text", VString "第四章 决策");
                          ("link", VString "004-决策.md") ];
                      VObject
                        [ ("text", VString "第五章 数组和循环");
                          ("link", VString "005-数组和循环.md") ];
                      VObject
                        [ ("text", VString "第六章 指针和引用");
                          ("link", VString "006-指针和引用.md") ];
                      VObject
                        [ ("text", VString "第七章 操作字符串");
                          ("link", VString "007-操作字符串.md") ] ]) ] ]);
      ("sidebarCollapsed", VBoolean true) ].

(** ** Strings

    The string operations that the properties of the collection are stated
    with; each follows the JavaScript method of the same name. *)

(** [s.startsWith(p)] *)
Definition startsWith (s p : string) : bool := String.prefix p s.

(** [s.endsWith(p)] *)
Definition endsWith (s p : string) : bool :=
  Nat.leb (String.length p) (String.length s) &&
  String.eqb (substring (String.length s - String.length p) (String.length p) s) p.

(** [s.split('/')]: the segments of a path. *)
Fixpoint segments (s : string) : list string :=
  match s with
  | "" => [""]
  | String c rest =>
      if Ascii.eqb c "/" then "" :: segments rest
      else
        match segments rest with
        | seg :: more => String c seg :: more
        | [] => [String c ""]
        end
  end.

(** A path that is read relative to a directory and names a file inside
    it: not empty, not absolute, and with no segment that climbs out. *)
Definition relative_within (p : string) : bool :=
  negb (String.eqb p "") &&
  negb (startsWith p "/") &&
  negb (existsb (String.eqb "..") (segments p)).

Fixpoint repeat_string (fill : string) (n : nat) : string :=
  match n with
  | O => ""
  | S n' => fill ++ repeat_string fill n'
  end.

(** [String(n).padStart(3, '0')] *)
Definition zero_padded3 (n : nat) : string :=
  let digits := NilEmpty.string_of_uint (Nat.to_uint n) in
  repeat_string "0" (3 - String.length digits) ++ digits.

Definition digit (c : ascii) : option nat :=
  let n := nat_of_ascii c in
  if Nat.leb 48 n && Nat.leb n 57 then Some (n - 48) else None.

Fixpoint leading_digits (s : string) (acc : nat) (seen : bool) : option nat :=
  match s with
  | String c rest =>
      match digit c with
      | Some d => leading_digits rest (10 * acc + d) true
      | None => if seen then Some acc else None
      end
  | "" => if seen then Some acc else None
  end.

(** The decimal number a string begins with, as [parseInt(s, 10)] reads
    it; [None] where JavaScript answers [NaN]. *)
Definition leading_number (s : string) : option nat := leading_digits s 0 false.

(** The numerals of the chapter labels. *)
Definition numeral (n : nat) : string :=
  match n with
  | 1 => "一" | 2 => "二" | 3 => "三" | 4 => "四" | 5 => "五"
  | 6 => "六" | 7 => "七" | 8 => "八" | 9 => "九" | _ => ""
  end.

(** How the label of chapter [n] begins. *)
Definition chapter_heading (n : nat) : string := "第" ++ numeral n ++ "章".

(** ** Reading a sidebar *)

Definition string_field (k : string) (v : value) : option string :=
  match get k v with
  | Some (VString s) => Some s
  | _ => None
  end.

Definition sidebar_item (v : value) : Prop :=
  exists text link,
    get "text" v = Some (VString text) /\
    get "link" v = Some (VString link) /\
    relative_within link = true.

Definition sidebar_group (v : value) : Prop :=
  exists text collapsed items,
    get "text" v = Some (VString text) /\
    get "collapsed" v = Some (VBoolean collapsed) /\
    get "items" v = Some (VArray items) /\
    Forall sidebar_item items.

(** A [sidebar] is an array of groups. *)
Definition sidebar_shape (cfg : value) : Prop :=
  exists groups,
    get "sidebar" cfg = Some (VArray groups) /\
    Forall sidebar_group groups.

(** One collapsed group of seven items, whose links are markdown file
    names that differ from one another. *)
Definition one_group_of_seven (cfg : value) : Prop :=
  exists group items links,
    get "sidebar" cfg = Some (VArray [group]) /\
    get "collapsed" group = Some (VBoolean true) /\
    get "items" group = Some (VArray items) /\
    List.length items = 7 /\
    map (string_field "link") items = map Some links /\
    Forall (fun link => endsWith link ".md" = true) links /\
    NoDup links.

(** The number that the link of an item begins with. *)
Definition link_number (item : value) : option nat :=
  match string_field "link" item with
  | Some link => leading_number link
  | None => None
  end.

(** The item at index [i] carries the number [i + 1], in its link and in
    its label. *)
Definition numbered_item (i : nat) (item : value) : Prop :=
  exists text link,
    get "text" item = Some (VString text) /\
    get "link" item = Some (VString link) /\
    startsWith link (zero_padded3 (i + 1) ++ "-") = true /\
    leading_number link = Some (i + 1) /\
    startsWith text (chapter_heading (i + 1)) = true.

Definition numbered_in_order (cfg : value) : Prop :=
  exists group items numbers,
    get "sidebar" cfg = Some (VArray [group]) /\
    get "items" group = Some (VArray items) /\
    (forall i, i < 7 ->
       exists item, nth_error items i = Some item /\ numbered_item i item) /\
    map link_number items = map Some numbers /\
    Sorted lt numbers.

(** The property names of an object, in the order of the literal. *)
Definition keys (v : value) : list string :=
  match v with
  | VObject props => map fst props
  | _ => []
  end.

Fixpoint no_repeat (names : list string) : bool :=
  match names with
  | [] => true
  | name :: rest => negb (existsb (String.eqb name) rest) && no_repeat rest
  end.

(** No object anywhere inside [v] writes a property name twice. *)
Fixpoint distinct_keys (v : value) : bool :=
  match v with
  | VString _ => true
  | VBoolean _ => true
  | VArray elems => forallb distinct_keys elems
  | VObject props =>
      no_repeat (map fst props) &&
      forallb (fun kv : string * value => let (_, child) := kv in distinct_keys child) props
  end.

(** The item at index [i] is labelled and linked with one and the same
    chapter title: the label is the heading of chapter [i + 1], a space
    and the title; the link is the number, a dash, the title and the
    markdown extension. *)
Definition chapter_item (i : nat) (item : value) : Prop :=
  exists title,
    title <> "" /\
    get "text" item = Some (VString (chapter_heading (i + 1) ++ " " ++ title)) /\
    get "link" item = Some (VString (zero_padded3 (i + 1) ++ "-" ++ title ++ ".md")).

Definition labels_match_links (cfg : value) : Prop :=
  exists group items,
    get "sidebar" cfg = Some (VArray [group]) /\
    get "items" group = Some (VArray items) /\
    forall i item, nth_error items i = Some item -> chapter_item i item.

(** An item that is a page and nothing more: a plain object whose own
    properties, the names that [Object.keys] lists, are its label and its
    link and no other.  Inherited properties are not own properties and
    are not spoken of. *)
Definition leaf_item (item : value) : Prop :=
  exists props,
    item = VObject props /\
    forall k, In k (map fst props) <-> (k = "text" \/ k = "link").

Definition items_are_leaves (cfg : value) : Prop :=
  exists group items,
    get "sidebar" cfg = Some (VArray [group]) /\
    get "items" group = Some (VArray items) /\
    Forall leaf_item items.

(** ** Evaluation of the module

    A computation takes the state of the build it runs in and either
    returns a value or throws one, in both cases with the state it leaves
    behind. *)

Inductive outcome (W A : Type) : Type :=
| Returns (a : A) (w : W)
| Throws (e : value) (w : W).

Arguments Returns {W A} a w.
Arguments Throws {W A} e w.

Definition M (W A : Type) : Type := W -> outcome W A.

Definition ret {W A : Type} (a : A) : M W A := fun w => Returns a w.

Definition bind {W A B : Type} (c : M W A) (k : A -> M W B) : M W B :=
  fun w =>
    match c w with
    | Returns a w' => k a w'
    | Throws e w' => Throws e w'
    end.

Notation "x <- c ;; k" := (bind c (fun x => k))
  (at level 61, c at next level, right associativity).

Section Collection.

(** The state of a build. *)
Variable world : Type.

(** [import { defineCollection } from 'vuepress-theme-plume'] *)
Variable defineCollection : value -> M world value.

(** The helper of the theme hands back the collection it is given and
    does nothing else. *)
Definition returns_its_argument : Prop :=
  forall (c : value) (w : world), defineCollection c w = Returns c w.

(** [export default defineCollection({ ... })]: the literal is built,
    then passed to the helper. *)
Definition default_export : M world value :=
  collection <- ret cppstudy ;;
  defineCollection collection.

(** [P] holds of the configuration that the module exports, in whatever
    build the module is evaluated. *)
Definition exported (P : value -> Prop) : Prop :=
  forall w : world, exists cfg w', default_export w = Returns cfg w' /\ P cfg.

End Collection.

Arguments returns_its_argument {world} defineCollection.
Arguments default_export {world} defineCollection.
Arguments exported {world} defineCollection P.

(** A helper that meets [returns_its_argument], in builds that are told
    apart by a number. *)
Definition plain_helper : value -> M nat value := fun c => ret c.

(** ** The string operations on small inputs *)

Example startsWith_yes : startsWith "/cppstudy" "/" = true.
Proof. reflexivity. Qed.

Example startsWith_no : startsWith "cppstudy" "/" = false.
Proof. reflexivity. Qed.

Example endsWith_yes : endsWith "notes.md" ".md" = true.
Proof. reflexivity. Qed.

Example endsWith_no : endsWith "notes.mdx" ".md" = false.
Proof. reflexivity. Qed.

Example endsWith_short : endsWith "md" ".md" = false.
Proof. reflexivity. Qed.

Example segments_two : segments "a/b.md" = ["a"; "b.md"].
Proof. reflexivity. Qed.

Example segments_absolute : segments "/a" = [""; "a"].
Proof. reflexivity. Qed.

Example relative_within_plain : relative_within "001-x.md" = true.
Proof. reflexivity. Qed.

Example relative_within_absolute : relative_within "/001-x.md" = false.
Proof. reflexivity. Qed.

Example relative_within_climbs : relative_within "a/../../x.md" = false.
Proof. reflexivity. Qed.

Example relative_within_empty : relative_within "" = false.
Proof. reflexivity. Qed.

Example zero_padded3_7 : zero_padded3 7 = "007".
Proof. reflexivity. Qed.

Example zero_padded3_42 : zero_padded3 42 = "042".
Proof. reflexivity. Qed.

Example zero_padded3_1234 : zero_padded3 1234 = "1234".
Proof. reflexivity. Qed.

Example leading_number_7 : leading_number "007-x.md" = Some 7.
Proof. reflexivity. Qed.

Example leading_number_none : leading_number "x-007.md" = None.
Proof. reflexivity. Qed.

Example chapter_heading_3 : chapter_heading 3 = "第三章".
Proof. reflexivity. Qed.

Example lookup_last_wins :
  get "a" (VObject [("a", VBoolean false); ("b", VString "x"); ("a", VBoolean true)])
  = Some (VBoolean true).
Proof. reflexivity. Qed.

Example get_absent : get "link" (VObject [("text", VString "x")]) = None.
Proof. reflexivity. Qed.

Example get_of_string : get "text" (VString "x") = None.
Proof. reflexivity. Qed.

(** The property names of the literal are pairwise distinct, so no
    property overrides another. *)
Lemma cppstudy_keys_distinct :
  exists props, cppstudy = VObject props /\ NoDup (map fst props).
Proof.
  eexists; split; [reflexivity |].
  simpl. repeat (constructor; [simpl; intuition discriminate |]). constructor.
Qed.

(** ** The exported configuration *)

Section Properties.

Variable world : Type.
Variable defineCollection : value -> M world value.
Hypothesis helper : returns_its_argument defineCollection.

Lemma default_export_returns (w : world) :
  default_export defineCollection w = Returns cppstudy w.
Proof.
  unfold default_export, bind, ret. apply helper.
Qed.

Lemma exported_literal (P : value -> Prop) :
  P cppstudy -> exported defineCollection P.
Proof.
  intros HP w. exists cppstudy, w. split; [apply default_export_returns | exact HP].
Qed.

(** C2: the [sidebar] of the exported configuration is an array of
    groups; every group has a string [text], a boolean [collapsed] and an
    array of [items]; every item has a string [text] and a string [link]
    that is a relative path staying inside the directory, so that no
    [link] begins with a slash. *)
Theorem sidebar_is_groups_of_items :
  exported defineCollection sidebar_shape.
Proof.
  apply exported_literal.
  eexists; split; [reflexivity |].
  constructor; [| constructor].
  do 3 eexists. repeat split; try reflexivity.
  repeat (constructor; [do 2 eexists; repeat split; reflexivity |]).
  constructor.
Qed.

(** C3: the [type] field of the exported configuration is the string
    ["doc"]. *)
Theorem type_is_doc :
  exported defineCollection (fun cfg => get "type" cfg = Some (VString "doc")).
Proof.
  apply exported_literal. reflexivity.
Qed.

(** C4: the [dir] field of the exported configuration is the string
    ["cppstudy"], a relative path: it does not begin with a slash. *)
Theorem dir_is_relative :
  exported defineCollection (fun cfg =>
    exists dir,
      get "dir" cfg = Some (VString dir) /\
      dir = "cppstudy" /\
      startsWith dir "/" = false /\
      relative_within dir = true).
Proof.
  apply exported_literal. eexists. repeat split; reflexivity.
Qed.

(** C5: the [sidebarCollapsed] field of the exported configuration is
    the boolean [true]: it is present, and it is neither a string nor a
    number. *)
Theorem sidebarCollapsed_is_boolean :
  exported defineCollection (fun cfg =>
    get "sidebarCollapsed" cfg = Some (VBoolean true) /\
    typeof (get "sidebarCollapsed" cfg) = TBoolean /\
    ~ In (typeof (get "sidebarCollapsed" cfg)) [TString; TNumber; TUndefined]).
Proof.
  apply exported_literal. repeat split; try reflexivity.
  simpl. intuition discriminate.
Qed.

(** C8: in the exported configuration [linkPrefix] is [dir] with a
    slash in front, and [title] is [dir]; the directory is
    ["cppstudy"]. *)
Theorem linkPrefix_and_title_follow_dir :
  exported defineCollection (fun cfg =>
    exists dir,
      get "dir" cfg = Some (VString dir) /\
      get "linkPrefix" cfg = Some (VString ("/" ++ dir)) /\
      get "title" cfg = Some (VString dir) /\
      dir = "cppstudy").
Proof.
  apply exported_literal. eexists. repeat split; reflexivity.
Qed.

(** C9: the [sidebar] of the exported configuration has exactly one
    group; its [collapsed] flag is [true]; its [items] are exactly
    seven; their [link] values all end with [".md"] and are pairwise
    distinct. *)
Theorem sidebar_one_group_seven_items :
  exported defineCollection one_group_of_seven.
Proof.
  apply exported_literal.
  do 2 eexists.
  exists [ "001-基本概念.md"; "002-基本数据类型.md"; "003-处理基本数据类型.md";
           "004-决策.md"; "005-数组和循环.md"; "006-指针和引用.md";
           "007-操作字符串.md" ].
  repeat split; try reflexivity.
  - repeat (constructor; [reflexivity |]). constructor.
  - repeat (constructor; [simpl; intuition discriminate |]). constructor.
Qed.

(** C10: in the single group of the [sidebar], for every index [i] from
    0 to 6 the [link] of the item at [i] begins with [i + 1] written
    with three digits and a dash, ["001-"] to ["007-"]; the numbers of
    the links increase strictly along the items, and the label of the
    item at [i] begins with the heading of chapter [i + 1]. *)
Theorem links_numbered_in_order :
  exported defineCollection numbered_in_order.
Proof.
  apply exported_literal.
  do 2 eexists. exists (seq 1 7).
  split; [reflexivity |]. split; [reflexivity |].
  split; [| split].
  - intros i Hi.
    do 7 (destruct i as [| i];
          [eexists; split;
           [reflexivity | do 2 eexists; repeat split; reflexivity] |]).
    lia.
  - reflexivity.
  - simpl. repeat constructor.
Qed.

End Properties.

(** ** The properties at a concrete helper

    Each property above, for [plain_helper] and the build number 0. *)

Lemma sidebar_is_groups_of_items_witness :
  returns_its_argument plain_helper /\
  exists cfg w', default_export plain_helper 0 = Returns cfg w' /\ sidebar_shape cfg.
Proof.
  split; [intros c w; reflexivity |].
  apply (sidebar_is_groups_of_items nat plain_helper). intros c w. reflexivity.
Defined.

Lemma type_is_doc_witness :
  returns_its_argument plain_helper /\
  exists cfg w',
    default_export plain_helper 0 = Returns cfg w' /\
    get "type" cfg = Some (VString "doc").
Proof.
  split; [intros c w; reflexivity |].
  apply (type_is_doc nat plain_helper). intros c w. reflexivity.
Defined.

Lemma dir_is_relative_witness :
  returns_its_argument plain_helper /\
  exists cfg w',
    default_export plain_helper 0 = Returns cfg w' /\
    exists dir,
      get "dir" cfg = Some (VString dir) /\
      dir = "cppstudy" /\
      startsWith dir "/" = false /\
      relative_within dir = true.
Proof.
  split; [intros c w; reflexivity |].
  apply (dir_is_relative nat plain_helper). intros c w. reflexivity.
Defined.

Lemma sidebarCollapsed_is_boolean_witness :
  returns_its_argument plain_helper /\
  exists cfg w',
    default_export plain_helper 0 = Returns cfg w' /\
    get "sidebarCollapsed" cfg = Some (VBoolean true) /\
    typeof (get "sidebarCollapsed" cfg) = TBoolean /\
    ~ In (typeof (get "sidebarCollapsed" cfg)) [TString; TNumber; TUndefined].
Proof.
  split; [intros c w; reflexivity |].
  apply (sidebarCollapsed_is_boolean nat plain_helper). intros c w. reflexivity.
Defined.

Lemma linkPrefix_and_title_follow_dir_witness :
  returns_its_argument plain_helper /\
  exists cfg w',
    default_export plain_helper 0 = Returns cfg w' /\
    exists dir,
      get "dir" cfg = Some (VString dir) /\
      get "linkPrefix" cfg = Some (VString ("/" ++ dir)) /\
      get "title" cfg = Some (VString dir) /\
      dir = "cppstudy".
Proof.
  split; [intros c w; reflexivity |].
  apply (linkPrefix_and_title_follow_dir nat plain_helper). intros c w. reflexivity.
Defined.

Lemma sidebar_one_group_seven_items_witness :
  returns_its_argument plain_helper /\
  exists cfg w',
    default_export plain_helper 0 = Returns cfg w' /\ one_group_of_seven cfg.
Proof.
  split; [intros c w; reflexivity |].
  apply (sidebar_one_group_seven_items nat plain_helper). intros c w. reflexivity.
Defined.

Lemma links_numbered_in_order_witness :
  returns_its_argument plain_helper /\
  exists cfg w',
    default_export plain_helper 0 = Returns cfg w' /\ numbered_in_order cfg.
Proof.
  split; [intros c w; reflexivity |].
  apply (links_numbered_in_order nat plain_helper). intros c w. reflexivity.
Defined.

(** ** More of the literal: labels, leaves and property names *)

Example no_repeat_yes : no_repeat ["text"; "link"] = true.
Proof. reflexivity. Qed.

Example no_repeat_no : no_repeat ["text"; "link"; "text"] = false.
Proof. reflexivity. Qed.

Example distinct_keys_nested_repeat :
  distinct_keys
    (VObject [("items", VArray [VObject [("link", VString "a"); ("link", VString "b")]])])
  = false.
Proof. reflexivity. Qed.

Example leaf_item_rejects_group :
  ~ leaf_item (VObject [("text", VString "x"); ("link", VString "y"); ("items", VArray [])]).
Proof.
  intros (props & E & H). injection E as <-.
  destruct (proj1 (H "items")) as [E | E]; [simpl; auto | discriminate E | discriminate E].
Qed.

Example leaf_item_rejects_label_alone :
  ~ leaf_item (VObject [("text", VString "x")]).
Proof.
  intros (props & E & H). injection E as <-.
  destruct (proj2 (H "link")) as [E | []]; [auto | discriminate E].
Qed.

(** A property that is read from an object was written in its literal. *)
Lemma lookup_in_keys (k : string) (props : list (string * value)) :
  lookup k props <> None -> In k (map fst props).
Proof.
  induction props as [| [k' v] rest IH]; simpl; intros H.
  - congruence.
  - destruct (lookup k rest) eqn:E.
    + right. apply IH. congruence.
    + destruct (String.eqb k k') eqn:Ek; [| congruence].
      left. symmetry. apply String.eqb_eq. exact Ek.
Qed.

Lemma get_in_keys (k : string) (v : value) :
  get k v <> None -> In k (keys v).
Proof.
  destruct v; simpl; try congruence. apply lookup_in_keys.
Qed.

Section Literal.

Variable world : Type.
Variable defineCollection : value -> M world value.
Hypothesis helper : returns_its_argument defineCollection.

(** X1: in the exported configuration every item of the group is
    labelled and linked with the same chapter title: at index [i] the
    label is the heading of chapter [i + 1], a space and a title, and the
    link is [i + 1] in three digits, a dash, that title and [".md"]. *)
Theorem labels_and_links_agree :
  exported defineCollection labels_match_links.
Proof.
  apply (exported_literal world defineCollection helper).
  do 2 eexists. split; [reflexivity |]. split; [reflexivity |].
  intros i item Hi.
  do 7 (destruct i as [| i];
        [injection Hi as <-; eexists; split; [| split; reflexivity]; discriminate |]).
  destruct i; discriminate Hi.
Qed.

(** X2: in the exported configuration every item of the group is a page
    and not a group of its own: it is a plain object whose own properties
    are exactly [text] and [link], with no [items] or [collapsed] of its
    own, so the sidebar is two levels deep. *)
Theorem sidebar_items_are_leaves :
  exported defineCollection items_are_leaves.
Proof.
  apply (exported_literal world defineCollection helper).
  do 2 eexists. split; [reflexivity |]. split; [reflexivity |].
  repeat (constructor;
          [eexists; split; [reflexivity |];
           intros k; simpl; intuition (subst; auto) |]).
  constructor.
Qed.

(** X3: no object of the exported configuration, at any depth, writes a
    property name twice, so every property of the literal is the one that
    is read and none is overridden. *)
Theorem no_property_overridden :
  exported defineCollection (fun cfg => distinct_keys cfg = true).
Proof.
  apply (exported_literal world defineCollection helper). reflexivity.
Qed.

End Literal.

Lemma labels_and_links_agree_witness :
  returns_its_argument plain_helper /\
  exists cfg w',
    default_export plain_helper 0 = Returns cfg w' /\ labels_match_links cfg.
Proof.
  split; [intros c w; reflexivity |].
  apply (labels_and_links_agree nat plain_helper). intros c w. reflexivity.
Defined.

Lemma sidebar_items_are_leaves_witness :
  returns_its_argument plain_helper /\
  exists cfg w',
    default_export plain_helper 0 = Returns cfg w' /\ items_are_leaves cfg.
Proof.
  split; [intros c w; reflexivity |].
  apply (sidebar_items_are_leaves nat plain_helper). intros c w. reflexivity.
Defined.

Lemma no_property_overridden_witness :
  returns_its_argument plain_helper /\
  exists cfg w',
    default_export plain_helper 0 = Returns cfg w' /\ distinct_keys cfg = true.
Proof.
  split; [intros c w; reflexivity |].
  apply (no_property_overridden nat plain_helper). intros c w. reflexivity.
Defined.
